(** * rln-contract: [script/generateWithdrawProof.py]

    A shallow embedding of the withdraw-proof script.  The script runs
    two external tools through the shell, reads [proof.json] line by
    line, and prints the long lines after removing some characters.

    Layout:
    - [PyStr]      the fragment of Python's [str] the script uses;
    - [PyText]     text-mode reading of a file, as [open(path)] does it;
    - [Script]     the script itself, over an explicit machine state
                   (environment, event log, standard output);
    - [Described]  the flattener written after its description;
    - [Lab]        concrete environments on which the script is run;
    - facts about the string operations, the loop and a run;
    - the properties of the script, claim by claim. *)

From Stdlib Require Import String Ascii List ZArith Lia Bool Arith.
Import ListNotations.
Local Open Scope string_scope.
Local Open Scope list_scope.

(* ===================================================================== *)
(** ** Python strings *)
(* ===================================================================== *)

Module PyStr.

(** Characters that occur as literals in the script. *)
Definition SP    : ascii := ascii_of_nat 32.   (* space *)
Definition COMMA : ascii := ascii_of_nat 44.   (* comma *)
Definition CR    : ascii := ascii_of_nat 13.   (* carriage return *)
Definition LF    : ascii := ascii_of_nat 10.   (* line feed *)
Definition TAB   : ascii := ascii_of_nat 9.    (* horizontal tab *)
Definition DQ    : ascii := ascii_of_nat 34.   (* double quote *)

Definition str1 (c : ascii) : string := String c EmptyString.

(** [chr(n)] for the code points of one-byte characters. *)
Definition chr (n : nat) : string := str1 (ascii_of_nat n).

(** [len(s)] *)
Definition len (s : string) : nat := String.length s.

(** [s.startswith(pre)] *)
Fixpoint startswith (pre s : string) : bool :=
  match pre, s with
  | EmptyString, _ => true
  | String a pre', String b s' => Ascii.eqb a b && startswith pre' s'
  | String _ _, EmptyString => false
  end.

(** The scan of [s.replace(old, new)] for a non-empty [old]: leftmost
    occurrences, never overlapping.  [skip] counts the characters of
    an occurrence just matched that are still to be dropped. *)
Fixpoint replace_scan (old new : string) (skip : nat) (s : string) : string :=
  match s with
  | EmptyString => EmptyString
  | String c s' =>
      match skip with
      | S k => replace_scan old new k s'
      | O =>
          if startswith old s
          then new ++ replace_scan old new (len old - 1) s'
          else String c (replace_scan old new 0 s')
      end
  end.

(** With an empty [old] Python puts [new] before every character and
    at the end. *)
Fixpoint intersperse_all (new s : string) : string :=
  match s with
  | EmptyString => new
  | String c s' => new ++ String c (intersperse_all new s')
  end.

(** [s.replace(old, new)] *)
Definition replace (old new s : string) : string :=
  match old with
  | EmptyString => intersperse_all new s
  | String _ _ => replace_scan old new 0 s
  end.

(** [needle in s] *)
Fixpoint contains (needle s : string) : bool :=
  startswith needle s ||
  match s with
  | EmptyString => false
  | String _ s' => contains needle s'
  end.

(** [s.count(c)] for a one-character [c]. *)
Fixpoint count_char (c : ascii) (s : string) : nat :=
  match s with
  | EmptyString => 0
  | String d s' => (if Ascii.eqb c d then 1 else 0) + count_char c s'
  end.

(** Removing every occurrence of one character; what [replace] comes
    to when [old] is one character and [new] is empty. *)
Fixpoint remove_char (c : ascii) (s : string) : string :=
  match s with
  | EmptyString => EmptyString
  | String d s' =>
      if Ascii.eqb c d then remove_char c s' else String d (remove_char c s')
  end.

(** [posixpath.dirname]: everything up to the last slash, without
    trailing slashes unless it is made of slashes only. *)
Definition SLASH : ascii := ascii_of_nat 47.

Fixpoint drop_to_slash (r : list ascii) : list ascii :=
  match r with
  | [] => []
  | c :: r' => if Ascii.eqb c SLASH then r else drop_to_slash r'
  end.

Fixpoint lstrip_slash (r : list ascii) : list ascii :=
  match r with
  | [] => []
  | c :: r' => if Ascii.eqb c SLASH then lstrip_slash r' else r
  end.

Definition dirname (p : string) : string :=
  let head_rev := drop_to_slash (rev (list_ascii_of_string p)) in
  match lstrip_slash head_rev with
  | [] => string_of_list_ascii (rev head_rev)
  | stripped => string_of_list_ascii (rev stripped)
  end.

End PyStr.

(* ===================================================================== *)
(** ** Text-mode reading *)
(* ===================================================================== *)

Module PyText.
Import PyStr.

(** A file's content is taken as already decoded: a string of
    characters, one [ascii] each, as in the documents the prover writes.

    [open(path)] reads in text mode with universal newlines: a
    carriage return followed by a line feed, and a carriage return on
    its own, both reach the program as one line feed. *)
Fixpoint universal_newlines (s : string) : string :=
  match s with
  | EmptyString => EmptyString
  | String c r =>
      if Ascii.eqb c CR then
        match r with
        | String d r' =>
            if Ascii.eqb d LF
            then String LF (universal_newlines r')
            else String LF (universal_newlines r)
        | EmptyString => String LF EmptyString
        end
      else String c (universal_newlines r)
  end.

(** Iterating over a file yields its lines, each with its line feed;
    only the last line may lack one. *)
Fixpoint splitlines_keep (s : string) : list string :=
  match s with
  | EmptyString => []
  | String c r =>
      if Ascii.eqb c LF then str1 LF :: splitlines_keep r
      else match splitlines_keep r with
           | [] => [str1 c]
           | l :: ls => String c l :: ls
           end
  end.

(** The items [for item in file] yields for a file whose decoded
    content is [text]. *)
Definition file_items (text : string) : list string :=
  splitlines_keep (universal_newlines text).

End PyText.

(* ===================================================================== *)
(** ** The script *)
(* ===================================================================== *)

Module Script.
Import PyStr PyText.

(** What the interpreter does that the outside can observe, in order. *)
Inductive event : Type :=
| Spawned (cmd : string)                (* subprocess.call hands cmd to the shell *)
| Exited (cmd : string) (code : Z)      (* the shell process has exited *)
| Opened (path : string)                (* open(path) succeeded *)
| OpenFailed (path : string)            (* open(path) raised *)
| Closed (path : string)                (* the with-block released the file *)
| Printed (line : string).              (* print(line) *)

(** The one exception the script can meet. *)
Inductive exn : Type :=
| FileNotFoundError (path : string).

Inductive result (A : Type) : Type :=
| Ok (a : A)
| Raise (e : exn).
Arguments Ok {A} a.
Arguments Raise {A} e.

(** An open text file: its name and the lines iteration yields. *)
Record textfile : Type := { name : string; items : list string }.

Section Interpreter.

(** The environment the script runs in.  [read_file w path] is the
    decoded content of the regular file at [path], if there is one;
    [shell cmd w] runs a command line to completion and gives the
    environment it leaves behind and its exit code. *)
Variable World : Type.
Variable read_file : World -> string -> option string.
Variable shell : string -> World -> World * Z.

Record machine : Type := {
  env : World;
  log : list event;
  stdout : string
}.

Definition Py (A : Type) : Type := machine -> result A * machine.

Definition ret {A} (a : A) : Py A := fun m => (Ok a, m).

Definition bind {A B} (c : Py A) (k : A -> Py B) : Py B :=
  fun m =>
    match c m with
    | (Ok a, m') => k a m'
    | (Raise e, m') => (Raise e, m')
    end.

Notation "x <- c ;; k" := (bind c (fun x => k))
  (at level 61, c at next level, right associativity).
Notation "c ;; k" := (bind c (fun _ => k))
  (at level 61, right associativity).

Definition record (evs : list event) (m : machine) : machine :=
  {| env := env m; log := log m ++ evs; stdout := stdout m |}.

(** [subprocess.call(cmd, shell=True)]: start the shell on [cmd], wait
    for it to exit, return its exit code. *)
Definition subprocess_call (cmd : string) : Py Z :=
  fun m =>
    let '(w, code) := shell cmd (env m) in
    (Ok code,
     {| env := w; log := log m ++ [Spawned cmd; Exited cmd code];
        stdout := stdout m |}).

(** [open(path)], text mode, for reading. *)
Definition open (path : string) : Py textfile :=
  fun m =>
    match read_file (env m) path with
    | Some text =>
        (Ok {| name := path; items := file_items text |},
         record [Opened path] m)
    | None => (Raise (FileNotFoundError path), record [OpenFailed path] m)
    end.

Definition close (f : textfile) : Py unit :=
  fun m => (Ok tt, record [Closed (name f)] m).

(** [with open(path) as file: body]: the file is released when the body
    is left, also by an exception. *)
Definition with_open {A} (path : string) (body : textfile -> Py A) : Py A :=
  file <- open path ;;
  fun m =>
    match body file m with
    | (r, m') => (r, snd (close file m'))
    end.

(** [print(s)] writes [s] and a line feed to standard output. *)
Definition print (s : string) : Py unit :=
  fun m =>
    (Ok tt,
     {| env := env m; log := log m ++ [Printed s];
        stdout := stdout m ++ s ++ str1 LF |}).

(** The chain of [replace] calls applied to one line. *)
Definition clean (item : string) : string :=
  replace (str1 DQ) ""
    (replace (str1 TAB) ""
       (replace (String CR (str1 LF)) ""
          (replace "," ""
             (replace " " "" item)))).

(** One turn of the loop body on the accumulator [respStr]. *)
Definition loop_body (respStr item : string) : string :=
  if (25 <? len item)%nat
  then respStr ++ (clean item ++ ",")
  else respStr.

(** [for item in file: ...] starting from [respStr]. *)
Definition for_items (its : list string) (respStr : string) : string :=
  fold_left loop_body its respStr.

Definition generateWitnessCmd (artefactPath : string) : string :=
  "node " ++ artefactPath ++ "/generate_witness.js " ++
  artefactPath ++ "/withdraw.wasm " ++
  artefactPath ++ "/input.json " ++
  artefactPath ++ "/witness.wtns".

Definition generateProofCmd (artefactPath : string) : string :=
  "snarkjs groth16 prove  " ++ artefactPath ++ "/final.zkey  " ++
  artefactPath ++ "/witness.wtns  " ++
  artefactPath ++ "/proof.json  " ++
  artefactPath ++ "/public.json".

Definition generateProof (artefactPath : string) : Py unit :=
  witnessGenerateResp <- subprocess_call (generateWitnessCmd artefactPath) ;;
  proofGenerateResp <- subprocess_call (generateProofCmd artefactPath) ;;
  let respStr := "" in
  respStr <- with_open (artefactPath ++ "/proof.json") (fun file =>
    let file_path := dirname (name file) in
    ret (for_items (items file) respStr)) ;;
  print (replace (chr 32) "" respStr).

(** [main()], once argparse has bound the positional argument. *)
Definition main (artefactPath : string) : Py unit :=
  generateProof artefactPath.

(** Names for what a run goes through: the outcome of each tool, the
    path that is opened, the events of the two calls, and the string
    handed to [print] when the file yields the lines [its]. *)
Definition after_witness (artefactPath : string) (w : World) : World * Z :=
  shell (generateWitnessCmd artefactPath) w.

Definition after_prover (artefactPath : string) (w : World) : World * Z :=
  shell (generateProofCmd artefactPath) (fst (after_witness artefactPath w)).

Definition proof_path (artefactPath : string) : string :=
  artefactPath ++ "/proof.json".

Definition tool_events (artefactPath : string) (w : World) : list event :=
  [ Spawned (generateWitnessCmd artefactPath);
    Exited (generateWitnessCmd artefactPath) (snd (after_witness artefactPath w));
    Spawned (generateProofCmd artefactPath);
    Exited (generateProofCmd artefactPath) (snd (after_prover artefactPath w)) ].

Definition printed_for (its : list string) : string :=
  replace (chr 32) "" (for_items its "").

(** The strings handed to [print], in order. *)
Fixpoint prints (l : list event) : list string :=
  match l with
  | [] => []
  | Printed s :: l' => s :: prints l'
  | _ :: l' => prints l'
  end.

(** The status the interpreter exits with: 0 after a normal return, 1
    after an exception nobody caught. *)
Definition exit_status {A} (r : result A) : Z :=
  match r with
  | Ok _ => 0%Z
  | Raise _ => 1%Z
  end.

End Interpreter.

Arguments env {World} m.
Arguments log {World} m.
Arguments stdout {World} m.

End Script.

Arguments Script.generateProof {World} read_file shell artefactPath _.
Arguments Script.main {World} read_file shell artefactPath _.
Arguments Script.subprocess_call {World} shell cmd _.
Arguments Script.open {World} read_file path _.
Arguments Script.print {World} s _.
Arguments Script.after_witness {World} shell artefactPath w.
Arguments Script.after_prover {World} shell artefactPath w.
Arguments Script.tool_events {World} shell artefactPath w.

(* ===================================================================== *)
(** ** The flattener in the specification's words *)
(* ===================================================================== *)

Module Described.
Import PyStr.

(** The characters the description lists one by one. *)
Definition listed (c : ascii) : bool :=
  Ascii.eqb c SP || Ascii.eqb c COMMA || Ascii.eqb c TAB || Ascii.eqb c DQ.

(** The characters a line end is made of. *)
Definition line_end (c : ascii) : bool :=
  Ascii.eqb c CR || Ascii.eqb c LF.

(** A line stripped as described: every listed character is dropped,
    and so is every sequence of carriage returns and line feeds, so
    that nothing of the line end is left. *)
Fixpoint strip (line : string) : string :=
  match line with
  | EmptyString => EmptyString
  | String c r =>
      if listed c || line_end c then strip r else String c (strip r)
  end.

(** The lines of a document as the file holds them: cut after every
    line feed, each with the line end it has in the file. *)
Definition lines (text : string) : list string :=
  PyText.splitlines_keep text.

(** The lines longer than the threshold. *)
Definition qualifying (lines : list string) : list string :=
  filter (fun l => 25 <? String.length l)%nat lines.

(** Each qualifying line stripped and followed by a comma, in order;
    then the spaces that remain are removed. *)
Definition flatten (lines : list string) : string :=
  remove_char SP
    (String.concat "" (map (fun l => (strip l ++ ",")%string) (qualifying lines))).

(** The tokens of a document joined the way the description promises:
    every token followed by one comma. *)
Definition joined (tokens : list string) : string :=
  String.concat "" (map (fun t => (t ++ ",")%string) tokens).


End Described.

(* ===================================================================== *)
(** ** Concrete environments *)
(* ===================================================================== *)

Module Lab.
Import PyStr.

(** A file system: the content of each path that holds a file. *)
Definition disk : Type := string -> option string.

Definition read (d : disk) (path : string) : option string := d path.

Definition empty_disk : disk := fun _ => None.

Definition write (path text : string) (d : disk) : disk :=
  fun q => if String.eqb q path then Some text else d q.

(** Tools that touch nothing and exit with [code]. *)
Definition inert (code : Z) : string -> disk -> disk * Z :=
  fun _ d => (d, code).

(** A prover that writes [text] to [out] and exits with 0, next to a
    witness generator that does nothing. *)
Definition proving (out text : string) : string -> disk -> disk * Z :=
  fun cmd d =>
    if startswith "snarkjs" cmd then (write out text d, 0%Z) else (d, 0%Z).

Definition nl : string := str1 LF.
Definition q : string := str1 DQ.

(** The four-line document of the end-to-end scenario, every line ended
    by a line feed. *)
Definition scenario_lines : list string :=
  [ "  " ++ q ++ "pi_a" ++ q ++ ": [";
    "    " ++ q ++ "1234567890123456789012345" ++ q ++ ",";
    "    " ++ q ++ "2" ++ q;
    "  ]," ]%string.

Definition scenario_text : string :=
  String.concat "" (map (fun l => (l ++ nl)%string) scenario_lines).

(** A proof document laid out the way the prover prints one, with
    shortened field elements: one element per line, indented, quoted. *)
Definition proof_tokens : list string :=
  [ "11111111111111111111111111111";
    "22222222222222222222222222222";
    "33333333333333333333333333333" ].

Definition proof_text : string :=
  "{" ++ nl ++
  " " ++ q ++ "pi_a" ++ q ++ ": [" ++ nl ++
  "  " ++ q ++ "11111111111111111111111111111" ++ q ++ "," ++ nl ++
  "  " ++ q ++ "22222222222222222222222222222" ++ q ++ "," ++ nl ++
  "  " ++ q ++ "1" ++ q ++ nl ++
  " ]," ++ nl ++
  " " ++ q ++ "pi_c" ++ q ++ ": [" ++ nl ++
  "  " ++ q ++ "33333333333333333333333333333" ++ q ++ "," ++ nl ++
  "  " ++ q ++ "1" ++ q ++ nl ++
  " ]," ++ nl ++
  " " ++ q ++ "protocol" ++ q ++ ": " ++ q ++ "groth16" ++ q ++ nl ++
  "}" ++ nl.

(** The same four lines, every line ended by a carriage return and a
    line feed. *)
Definition scenario_text_crlf : string :=
  String.concat ""
    (map (fun l => (l ++ String CR nl)%string) scenario_lines).

(** Two lines next to the threshold, line feed included in the count. *)
Definition line25 : string := "123456789012345678901234" ++ nl.
Definition line26 : string := "1234567890123456789012345" ++ nl.

Definition first_line : string := "{" ++ nl.
Definition last_line : string := "}" ++ nl.


(** A document saved with carriage return and line feed at the end of
    every line: each line feed of [text] gets a carriage return before
    it. *)
Fixpoint crlf (text : string) : string :=
  match text with
  | EmptyString => EmptyString
  | String c r =>
      if Ascii.eqb c LF then String CR (String LF (crlf r))
      else String c (crlf r)
  end.

Definition dir : string := "/tmp/artefacts".

Definition proof_json : string := dir ++ "/proof.json".

Definition boot (d : disk) : Script.machine disk :=
  {| Script.env := d; Script.log := []; Script.stdout := "" |}.

Definition run (sh : string -> disk -> disk * Z) (d : disk) :=
  Script.generateProof read sh dir (boot d).

End Lab.

(* ===================================================================== *)
(** ** Facts about the string operations *)
(* ===================================================================== *)

Section StringFacts.
Import PyStr PyText.
Local Arguments Ascii.eqb : simpl never.

Lemma append_nil_r (s : string) : (s ++ "")%string = s.
Proof. induction s as [|c s IH]; simpl; [reflexivity | now rewrite IH]. Qed.

Lemma append_assoc (a b c : string) :
  ((a ++ b) ++ c)%string = (a ++ (b ++ c))%string.
Proof. induction a as [|x a IH]; simpl; [reflexivity | now rewrite IH]. Qed.

(** Replacing a single character by nothing is deleting it. *)
Lemma replace_char_empty (c : ascii) (s : string) :
  replace (str1 c) "" s = remove_char c s.
Proof.
  unfold replace, str1.
  induction s as [|d s IH]; simpl; [reflexivity|].
  destruct (Ascii.eqb c d); simpl; [exact IH | now rewrite IH].
Qed.

Lemma remove_char_append (c : ascii) (a b : string) :
  remove_char c (a ++ b) = (remove_char c a ++ remove_char c b)%string.
Proof.
  induction a as [|d a IH]; simpl; [reflexivity|].
  destruct (Ascii.eqb c d); simpl; now rewrite IH.
Qed.

Lemma count_char_append (c : ascii) (a b : string) :
  count_char c (a ++ b) = count_char c a + count_char c b.
Proof.
  induction a as [|d a IH]; simpl; [reflexivity|].
  rewrite IH. lia.
Qed.

(** Deleting a character that does not occur changes nothing. *)
Lemma remove_char_absent (c : ascii) (s : string) :
  count_char c s = 0 -> remove_char c s = s.
Proof.
  induction s as [|d s IH]; simpl; [reflexivity|].
  destruct (Ascii.eqb c d); simpl; [discriminate|].
  intros H. now rewrite IH.
Qed.

Lemma count_char_remove_same (c : ascii) (s : string) :
  count_char c (remove_char c s) = 0.
Proof.
  induction s as [|d s IH]; simpl; [reflexivity|].
  destruct (Ascii.eqb c d) eqn:E; simpl; [exact IH | now rewrite E].
Qed.

(** Deleting one character never adds occurrences of another. *)
Lemma count_char_remove_le (c d : ascii) (s : string) :
  count_char c (remove_char d s) <= count_char c s.
Proof.
  induction s as [|e s IH]; simpl; [lia|].
  destruct (Ascii.eqb d e); simpl; lia.
Qed.

(** Nor does replacing any pattern by nothing. *)
Lemma count_char_replace_scan_le (c : ascii) (old : string) (s : string) :
  forall k, count_char c (replace_scan old "" k s) <= count_char c s.
Proof.
  induction s as [|e s IH]; intros k; simpl; [lia|].
  destruct k as [|k].
  - destruct (startswith old (String e s)); simpl.
    + specialize (IH (len old - 1)). lia.
    + specialize (IH 0). lia.
  - specialize (IH k). lia.
Qed.

Lemma count_char_replace_empty_le (c : ascii) (old s : string) :
  old <> "" -> count_char c (replace old "" s) <= count_char c s.
Proof.
  destruct old as [|o old]; [congruence|]. intros _.
  unfold replace. apply count_char_replace_scan_le.
Qed.

(** Without a carriage return there is no pair to replace. *)
Lemma replace_crlf_absent (s : string) :
  count_char CR s = 0 -> replace (String CR (str1 LF)) "" s = s.
Proof.
  unfold replace.
  induction s as [|d s IH]; [reflexivity|].
  cbn [replace_scan startswith count_char].
  destruct (Ascii.eqb CR d) eqn:E; [discriminate|].
  cbn [andb Nat.add]. intros H. now rewrite IH.
Qed.

(** Universal newlines leave no carriage return. *)
Lemma universal_newlines_no_cr (s : string) :
  count_char CR (universal_newlines s) = 0.
Proof.
  assert (G : forall n s, String.length s <= n ->
              count_char CR (universal_newlines s) = 0).
  { clear s. induction n as [|n IH]; intros [|c s] L; simpl in *;
      try reflexivity; try lia.
    destruct (Ascii.eqb c CR) eqn:E.
    - destruct s as [|d s]; [reflexivity|].
      destruct (Ascii.eqb d LF); simpl.
      + apply IH. simpl in L. lia.
      + apply (IH (String d s)). lia.
    - simpl. rewrite Ascii.eqb_sym, E. simpl. apply IH. lia. }
  apply (G (String.length s)). lia.
Qed.

(** Splitting into lines neither adds nor loses characters. *)
Lemma splitlines_keep_concat (s : string) :
  String.concat "" (splitlines_keep s) = s.
Proof.
  induction s as [|c s IH]; simpl; [reflexivity|].
  destruct (Ascii.eqb_spec c LF) as [->|N].
  - destruct (splitlines_keep s) as [|l ls] eqn:E.
    + simpl in *. now subst.
    + cbn [String.concat]. cbn [String.concat] in IH.
      unfold str1. simpl. destruct ls; rewrite <- IH; reflexivity.
  - destruct (splitlines_keep s) as [|l ls] eqn:E.
    + simpl in *. now subst.
    + cbn [String.concat] in *. destruct ls; simpl; now rewrite <- IH.
Qed.

Lemma count_char_concat_zero (c : ascii) (ls : list string) :
  count_char c (String.concat "" ls) = 0 ->
  Forall (fun l => count_char c l = 0) ls.
Proof.
  induction ls as [|l ls IH]; intros H; constructor.
  - destruct ls; simpl in H; [exact H|].
    rewrite count_char_append in H. lia.
  - apply IH. destruct ls; simpl in *; [reflexivity|].
    rewrite count_char_append in H. simpl in H. lia.
Qed.

(** No line a text file yields holds a carriage return. *)
Lemma file_items_no_cr (text : string) :
  Forall (fun l => count_char CR l = 0) (file_items text).
Proof.
  unfold file_items. apply count_char_concat_zero.
  rewrite splitlines_keep_concat. apply universal_newlines_no_cr.
Qed.

End StringFacts.

(* ===================================================================== *)
(** ** Facts about the loop *)
(* ===================================================================== *)

Section LoopFacts.
Import PyStr PyText Script.
Local Arguments Ascii.eqb : simpl never.

Lemma concat_empty_cons (x : string) (xs : list string) :
  String.concat "" (x :: xs) = (x ++ String.concat "" xs)%string.
Proof.
  destruct xs; cbn [String.concat]; [now rewrite append_nil_r | reflexivity].
Qed.

(** The chain of replacements, with the single-character ones read as
    deletions. *)
Lemma clean_deletions (s : string) :
  clean s =
  remove_char DQ
    (remove_char TAB
       (replace (String CR (str1 LF)) ""
          (remove_char COMMA (remove_char SP s)))).
Proof.
  unfold clean.
  rewrite (replace_char_empty DQ), (replace_char_empty TAB).
  change (replace "," "") with (replace (str1 COMMA) "").
  change (replace " " "") with (replace (str1 SP) "").
  now rewrite (replace_char_empty COMMA), (replace_char_empty SP).
Qed.

(** A cleaned line holds no space, whatever the line was. *)
Lemma clean_no_space (s : string) : count_char SP (clean s) = 0.
Proof.
  rewrite clean_deletions.
  pose proof (count_char_remove_same SP s) as H0.
  pose proof (count_char_remove_le SP COMMA (remove_char SP s)) as H1.
  pose proof (count_char_replace_empty_le SP (String CR (str1 LF))
                (remove_char COMMA (remove_char SP s))) as H2.
  assert (N : String CR (str1 LF) <> "") by discriminate.
  specialize (H2 N).
  pose proof (count_char_remove_le SP TAB
                (replace (String CR (str1 LF)) ""
                   (remove_char COMMA (remove_char SP s)))) as H3.
  pose proof (count_char_remove_le SP DQ
                (remove_char TAB
                   (replace (String CR (str1 LF)) ""
                      (remove_char COMMA (remove_char SP s))))) as H4.
  lia.
Qed.

(** On a line without carriage return the pair replacement is idle. *)
Lemma clean_without_cr (s : string) :
  count_char CR s = 0 ->
  clean s =
  remove_char DQ (remove_char TAB (remove_char COMMA (remove_char SP s))).
Proof.
  intros H. rewrite clean_deletions, replace_crlf_absent; [reflexivity|].
  pose proof (count_char_remove_le CR COMMA (remove_char SP s)).
  pose proof (count_char_remove_le CR SP s). lia.
Qed.

(** The accumulator only grows at its end. *)
Lemma for_items_from (its : list string) (acc : string) :
  for_items its acc = (acc ++ for_items its "")%string.
Proof.
  unfold for_items. revert acc.
  induction its as [|it its IH]; intros acc; cbn [fold_left].
  - now rewrite append_nil_r.
  - rewrite (IH (loop_body acc it)), (IH (loop_body "" it)).
    unfold loop_body. destruct (25 <? len it)%nat.
    + cbn [append]. now rewrite append_assoc.
    + reflexivity.
Qed.

Lemma for_items_cons (it : string) (its : list string) :
  for_items (it :: its) "" =
  ((if (25 <? len it)%nat then clean it ++ "," else "") ++
   for_items its "")%string.
Proof.
  unfold for_items at 1. cbn [fold_left]. fold (for_items its (loop_body "" it)).
  rewrite for_items_from. unfold loop_body.
  destruct (25 <? len it)%nat; reflexivity.
Qed.

Lemma for_items_app (a b : list string) :
  for_items (a ++ b) "" = (for_items a "" ++ for_items b "")%string.
Proof.
  induction a as [|it a IH]; [reflexivity|].
  rewrite <- app_comm_cons, !for_items_cons, IH. now rewrite append_assoc.
Qed.

(** What the loop leaves holds no space. *)
Lemma for_items_no_space (its : list string) :
  count_char SP (for_items its "") = 0.
Proof.
  induction its as [|it its IH]; [reflexivity|].
  rewrite for_items_cons, count_char_append, IH.
  destruct (25 <? len it)%nat; [|reflexivity].
  rewrite count_char_append, clean_no_space. reflexivity.
Qed.

(** So the last [replace], on the whole string, finds nothing. *)
Lemma final_replace_idle (its : list string) :
  replace (chr 32) "" (for_items its "") = for_items its "".
Proof.
  change (chr 32) with (str1 SP).
  rewrite replace_char_empty.
  apply remove_char_absent, for_items_no_space.
Qed.

(** On a line without carriage return the described strip is the
    code's cleaning with the line feeds taken out as well. *)
Lemma strip_is_clean_without_line_feed (s : string) :
  count_char CR s = 0 -> Described.strip s = remove_char LF (clean s).
Proof.
  intros H. rewrite (clean_without_cr s H).
  induction s as [|d s IH]; [reflexivity|].
  cbn [count_char] in H.
  destruct (Ascii.eqb CR d) eqn:Ecr; [discriminate|].
  cbn [Nat.add] in H. specialize (IH H).
  cbn [Described.strip]. unfold Described.listed, Described.line_end.
  rewrite (Ascii.eqb_sym d SP), (Ascii.eqb_sym d COMMA),
          (Ascii.eqb_sym d TAB), (Ascii.eqb_sym d DQ),
          (Ascii.eqb_sym d CR), (Ascii.eqb_sym d LF), Ecr.
  cbn [remove_char].
  destruct (Ascii.eqb SP d) eqn:E1; cbn [orb].
  { exact IH. }
  cbn [remove_char].
  destruct (Ascii.eqb COMMA d) eqn:E2; cbn [orb].
  { exact IH. }
  cbn [remove_char].
  destruct (Ascii.eqb TAB d) eqn:E3; cbn [orb].
  { exact IH. }
  cbn [remove_char].
  destruct (Ascii.eqb DQ d) eqn:E4; cbn [orb].
  { exact IH. }
  cbn [remove_char].
  destruct (Ascii.eqb LF d) eqn:E5.
  { exact IH. }
  now rewrite IH.
Qed.

(** On lines without carriage return the description's string is what
    the script prints with the line feeds taken out: the line feeds are
    all that sets the two apart. *)
Lemma described_is_printed_without_line_feed (its : list string) :
  Forall (fun l => count_char CR l = 0) its ->
  Described.flatten its = remove_char LF (printed_for its).
Proof.
  intros H. unfold Described.flatten, printed_for.
  rewrite final_replace_idle.
  assert (E : String.concat ""
                (map (fun l => (Described.strip l ++ ",")%string)
                   (Described.qualifying its)) =
              remove_char LF (for_items its "")).
  { induction H as [|it its Hit _ IH]; [reflexivity|].
    rewrite for_items_cons, remove_char_append, <- IH.
    unfold Described.qualifying. cbn [filter]. unfold len.
    destruct (25 <? String.length it)%nat; [|reflexivity].
    cbn [map]. rewrite concat_empty_cons, remove_char_append.
    now rewrite (strip_is_clean_without_line_feed it Hit). }
  rewrite E. apply remove_char_absent.
  pose proof (count_char_remove_le SP LF (for_items its "")).
  pose proof (for_items_no_space its). lia.
Qed.

(** Deleting one character leaves the count of any other as it was. *)
Lemma count_char_remove_other (c d : ascii) (s : string) :
  c <> d -> count_char c (remove_char d s) = count_char c s.
Proof.
  intros N. induction s as [|e s IH]; [reflexivity|].
  cbn [remove_char count_char].
  destruct (Ascii.eqb_spec d e) as [->|Nde].
  - destruct (Ascii.eqb_spec c e) as [->|_]; [congruence | exact IH].
  - cbn [count_char]. now rewrite IH.
Qed.

(** Cleaning a line read from a text file keeps its line feed: the only
    replacement that names a line feed wants a carriage return first. *)
Lemma clean_keeps_line_feed (item : string) :
  count_char CR item = 0 ->
  count_char LF (clean item) = count_char LF item.
Proof.
  intros H. rewrite (clean_without_cr item H).
  rewrite !count_char_remove_other; [reflexivity | | | |]; discriminate.
Qed.

End LoopFacts.

(* ===================================================================== *)
(** ** The two ways a run can go *)
(* ===================================================================== *)

Section Runs.
Import PyStr PyText Script.

Context {World : Type}.
Variable read_file : World -> string -> option string.
Variable shell : string -> World -> World * Z.

(** Up to [open], every run is the same: both tools are run, in order,
    and the file is looked up in the environment the prover left. *)
Lemma generateProof_unfold (p : string) (m : machine World) :
  generateProof read_file shell p m =
  match read_file (fst (after_prover shell p (env m))) (proof_path p) with
  | Some text =>
      (Ok tt,
       {| env := fst (after_prover shell p (env m));
          log := log m ++ tool_events shell p (env m) ++
                 [Opened (proof_path p); Closed (proof_path p);
                  Printed (printed_for (file_items text))];
          stdout := stdout m ++ printed_for (file_items text) ++ str1 LF |})
  | None =>
      (Raise (FileNotFoundError (proof_path p)),
       {| env := fst (after_prover shell p (env m));
          log := log m ++ tool_events shell p (env m) ++
                 [OpenFailed (proof_path p)];
          stdout := stdout m |})
  end.
Proof.
  destruct m as [w l o].
  unfold generateProof, bind, subprocess_call, with_open, bind, open, close,
    print, ret, record, tool_events, after_prover, after_witness, proof_path,
    printed_for.
  cbn [env log stdout].
  destruct (shell (generateWitnessCmd p) w) as [w1 c1] eqn:E1.
  cbn [fst snd env log stdout].
  destruct (shell (generateProofCmd p) w1) as [w2 c2] eqn:E2.
  cbn [fst snd env log stdout].
  destruct (read_file w2 (p ++ "/proof.json")) as [text|];
    cbn [fst snd env log stdout name items];
    repeat rewrite <- app_assoc; reflexivity.
Qed.


Lemma generateProof_missing (p : string) (m : machine World) :
  read_file (fst (after_prover shell p (env m))) (proof_path p) = None ->
  generateProof read_file shell p m =
  (Raise (FileNotFoundError (proof_path p)),
   {| env := fst (after_prover shell p (env m));
      log := log m ++ tool_events shell p (env m) ++
             [OpenFailed (proof_path p)];
      stdout := stdout m |}).
Proof. intros H. now rewrite generateProof_unfold, H. Qed.

End Runs.

Lemma prints_app (a b : list Script.event) :
  Script.prints (a ++ b) = Script.prints a ++ Script.prints b.
Proof.
  induction a as [|e a IH]; [reflexivity|].
  destruct e; cbn [app Script.prints]; rewrite IH; reflexivity.
Qed.

(* ===================================================================== *)
(** ** Properties of the script *)
(* ===================================================================== *)

Import PyStr PyText Script.

(** Claim C1.  The flattener as described, on the end-to-end document.
    Stripping every line longer than 25 characters of its spaces,
    commas, line-end sequences, tabs and double quotes and putting a
    comma after it gives the digits followed by the comma, for the
    document saved with carriage return and line feed and for the one
    saved with line feeds only.  The script prints the digits, a line
    feed, and then the comma: reading in text mode hands every line to
    the loop with a bare line feed at its end, which the replacement of
    the carriage-return/line-feed pair does not match. *)
Theorem flattener_keeps_line_end :
  Described.flatten (Described.lines Lab.scenario_text_crlf) =
    "1234567890123456789012345," /\
  prints (log (snd (Lab.run (Lab.inert 0)
                      (Lab.write Lab.proof_json Lab.scenario_text_crlf
                         Lab.empty_disk)))) =
    [("1234567890123456789012345" ++ Lab.nl ++ ",")%string] /\
  Described.flatten (Described.lines Lab.scenario_text) =
    "1234567890123456789012345," /\
  prints (log (snd (Lab.run (Lab.inert 0)
                      (Lab.write Lab.proof_json Lab.scenario_text
                         Lab.empty_disk)))) =
    [("1234567890123456789012345" ++ Lab.nl ++ ",")%string] /\
  prints (log (snd (Lab.run (Lab.inert 0)
                      (Lab.write Lab.proof_json Lab.scenario_text_crlf
                         Lab.empty_disk)))) <>
    [Described.flatten (Described.lines Lab.scenario_text_crlf)].
Proof.
  repeat apply conj; try (vm_compute; reflexivity).
  intros H. vm_compute in H. discriminate H.
Qed.

(** Claim C2.  Tokens joined by commas.  On a proof document laid out one
    field element per line, the lines longer than the threshold are the
    three element lines, in file order; the script prints each token
    with its line feed still attached, before the comma, which is not
    the tokens joined by commas. *)
Theorem proof_document_output :
  Described.qualifying (file_items Lab.proof_text) =
    map (fun t => ("  " ++ Lab.q ++ t ++ Lab.q ++ "," ++ Lab.nl)%string)
      Lab.proof_tokens /\
  stdout (snd (Lab.run (Lab.inert 0)
                 (Lab.write Lab.proof_json Lab.proof_text Lab.empty_disk))) =
    (String.concat ""
       (map (fun t => (t ++ Lab.nl ++ ",")%string) Lab.proof_tokens) ++
     Lab.nl)%string /\
  stdout (snd (Lab.run (Lab.inert 0)
                 (Lab.write Lab.proof_json Lab.proof_text Lab.empty_disk))) <>
    (Described.joined Lab.proof_tokens ++ Lab.nl)%string.
Proof.
  split; [vm_compute; reflexivity|]. split; [vm_compute; reflexivity|].
  intros H. vm_compute in H. discriminate H.
Qed.

(** Claim C3.  Sequencing.  Both command lines are the artefact path
    concatenated with fixed pieces; the witness generator is started
    first and has exited, with its code returned, before the prover is
    started; the prover runs in the environment the witness generator
    left, and the rest of the run sees the environment the prover left.
    No other process is started. *)
Theorem tools_run_in_sequence :
  forall (World : Type) (read_file : World -> string -> option string)
         (shell : string -> World -> World * Z)
         (artefactPath : string) (m : machine World),
    let W := ("node " ++ artefactPath ++ "/generate_witness.js " ++
              artefactPath ++ "/withdraw.wasm " ++
              artefactPath ++ "/input.json " ++
              artefactPath ++ "/witness.wtns")%string in
    let P := ("snarkjs groth16 prove  " ++ artefactPath ++ "/final.zkey  " ++
              artefactPath ++ "/witness.wtns  " ++
              artefactPath ++ "/proof.json  " ++
              artefactPath ++ "/public.json")%string in
    let w1 := fst (shell W (env m)) in
    exists rest,
      log (snd (generateProof read_file shell artefactPath m)) =
        log m ++
        [Spawned W; Exited W (snd (shell W (env m)));
         Spawned P; Exited P (snd (shell P w1))] ++ rest /\
      env (snd (generateProof read_file shell artefactPath m)) =
        fst (shell P w1) /\
      Forall (fun e => forall cmd, e <> Spawned cmd) rest.
Proof.
  intros World read_file shell p m W P w1.
  rewrite generateProof_unfold.
  destruct (read_file _ _) as [text|]; eexists; cbn [snd log env];
    (split; [reflexivity | split; [reflexivity|]]);
    repeat constructor; discriminate.
Qed.

(** Claim C4.  Exit codes are ignored.  Two runs whose tools leave the same
    environments behind, whatever their exit codes, return or raise
    alike, print the same, and exit with the same status; both go on to
    open [proof.json]; and when the file can be read the status is 0. *)
Theorem exit_codes_ignored :
  forall (World : Type) (read_file : World -> string -> option string)
         (shell shell' : string -> World -> World * Z)
         (artefactPath : string) (m : machine World),
    (forall cmd w, fst (shell cmd w) = fst (shell' cmd w)) ->
    let run := generateProof read_file shell artefactPath m in
    let run' := generateProof read_file shell' artefactPath m in
    let path := (artefactPath ++ "/proof.json")%string in
    fst run = fst run' /\
    stdout (snd run) = stdout (snd run') /\
    exit_status (fst run) = exit_status (fst run') /\
    (In (Opened path) (log (snd run)) \/ In (OpenFailed path) (log (snd run))) /\
    (In (Opened path) (log (snd run')) \/ In (OpenFailed path) (log (snd run'))) /\
    (forall text,
        read_file (fst (after_prover shell artefactPath (env m))) path = Some text ->
        exit_status (fst run) = 0%Z /\ exit_status (fst run') = 0%Z).
Proof.
  intros World read_file shell shell' p m Hsame run run' path.
  assert (E : fst (after_prover shell p (env m)) =
              fst (after_prover shell' p (env m))).
  { unfold after_prover, after_witness. now rewrite !Hsame. }
  subst run run' path. rewrite !generateProof_unfold, <- E.
  unfold proof_path.
  destruct (read_file _ _) as [text|]; cbn [fst snd log stdout exit_status].
  - repeat split; try reflexivity.
    + left. rewrite !in_app_iff. right. right. now left.
    + left. rewrite !in_app_iff. right. right. now left.
  - repeat split; try reflexivity; try discriminate.
    + right. rewrite !in_app_iff. right. right. now left.
    + right. rewrite !in_app_iff. right. right. now left.
Qed.

Lemma exit_codes_ignored_witness :
  (forall cmd w, fst (Lab.inert 0 cmd w) = fst (Lab.inert 1 cmd w)) /\
  stdout (snd (Lab.run (Lab.inert 0)
                 (Lab.write Lab.proof_json Lab.proof_text Lab.empty_disk))) =
  stdout (snd (Lab.run (Lab.inert 1)
                 (Lab.write Lab.proof_json Lab.proof_text Lab.empty_disk))).
Proof.
  split; [intros cmd w; reflexivity|].
  exact (proj1 (proj2
    (exit_codes_ignored Lab.disk Lab.read (Lab.inert 0) (Lab.inert 1) Lab.dir
       (Lab.boot (Lab.write Lab.proof_json Lab.proof_text Lab.empty_disk))
       (fun cmd w => eq_refl)))).
Defined.

(** Claim C5.  Missing proof document.  When no [proof.json] is in the
    artefact directory by the time the script opens it, the run ends in
    the [FileNotFoundError] raised by [open]: nothing is printed, the
    open failure is the last event, and the exit status is 1. *)
Theorem missing_proof_document :
  forall (World : Type) (read_file : World -> string -> option string)
         (shell : string -> World -> World * Z)
         (artefactPath : string) (m : machine World),
    read_file (fst (after_prover shell artefactPath (env m)))
      (artefactPath ++ "/proof.json")%string = None ->
    generateProof read_file shell artefactPath m =
    (Raise (FileNotFoundError (artefactPath ++ "/proof.json")),
     {| env := fst (after_prover shell artefactPath (env m));
        log := log m ++ tool_events shell artefactPath (env m) ++
               [OpenFailed (artefactPath ++ "/proof.json")];
        stdout := stdout m |}) /\
    prints (log (snd (generateProof read_file shell artefactPath m))) =
      prints (log m) /\
    exit_status (fst (generateProof read_file shell artefactPath m)) = 1%Z.
Proof.
  intros World read_file shell p m H.
  rewrite (generateProof_missing read_file shell p m H).
  split; [reflexivity|]. split; [|reflexivity].
  cbn [snd log]. rewrite prints_app. unfold tool_events.
  cbn [app prints]. apply app_nil_r.
Qed.

Lemma missing_proof_document_witness :
  Lab.read (fst (after_prover (Lab.inert 1) Lab.dir (env (Lab.boot Lab.empty_disk))))
    (Lab.dir ++ "/proof.json")%string = None /\
  stdout (snd (Lab.run (Lab.inert 1) Lab.empty_disk)) = "" /\
  exit_status (fst (Lab.run (Lab.inert 1) Lab.empty_disk)) = 1%Z.
Proof.
  split; [reflexivity|].
  pose proof (missing_proof_document Lab.disk Lab.read (Lab.inert 1) Lab.dir
                (Lab.boot Lab.empty_disk) eq_refl) as [E [_ X]].
  split; [|exact X].
  unfold Lab.run. rewrite E. reflexivity.
Defined.

(** Claim C6, as amended.  The threshold is on the length the loop
    measures, which counts the line feed that ends a line: among the
    lines of any document, a line whose length with its line feed is 25
    adds nothing to the printed string, and a line whose length with
    its line feed is 26 adds its cleaned text and a comma, at its
    place. *)
Theorem threshold_boundary :
  forall (before after : list string) (short long : string),
    len short = 25 ->
    len long = 26 ->
    printed_for (before ++ short :: after) = printed_for (before ++ after) /\
    printed_for (before ++ long :: after) =
      (printed_for before ++ clean long ++ "," ++ printed_for after)%string.
Proof.
  intros before after short long H25 H26.
  unfold printed_for. rewrite !final_replace_idle.
  rewrite !for_items_app, !for_items_cons, H25, H26.
  cbn [Nat.ltb Nat.leb append].
  split; [reflexivity|]. now rewrite append_assoc.
Qed.

Lemma threshold_boundary_witness :
  len Lab.line25 = 25 /\ len Lab.line26 = 26 /\
  printed_for ([Lab.first_line] ++ Lab.line25 :: [Lab.last_line]) =
    printed_for ([Lab.first_line] ++ [Lab.last_line]) /\
  printed_for ([Lab.first_line] ++ Lab.line26 :: [Lab.last_line]) =
    (printed_for [Lab.first_line] ++ clean Lab.line26 ++ "," ++
     printed_for [Lab.last_line])%string.
Proof.
  split; [reflexivity|]. split; [reflexivity|].
  exact (threshold_boundary _ _ Lab.line25 Lab.line26 eq_refl eq_refl).
Defined.

(** Claim C6 as worded fails: a line of exactly 25 characters that is
    ended by a line feed reaches the loop with length 26 and is
    printed. *)
Lemma line_of_25_characters_is_printed :
  len "1234567890123456789012345" = 25 /\
  file_items ("1234567890123456789012345" ++ str1 LF) =
    [("1234567890123456789012345" ++ str1 LF)%string] /\
  printed_for (file_items ("1234567890123456789012345" ++ str1 LF)) =
    ("1234567890123456789012345" ++ str1 LF ++ ",")%string /\
  ~ (forall line : string,
        len line = 25 ->
        printed_for (file_items (line ++ str1 LF)) = "").
Proof.
  repeat apply conj; try (vm_compute; reflexivity).
  intros H. specialize (H "1234567890123456789012345" eq_refl).
  vm_compute in H. discriminate H.
Qed.

(** Claim C7.  One line on standard output.  With a prover that writes the
    four-line document, the script calls [print] once, and what it
    writes to standard output holds two line feeds: the token on one
    line, the comma on the next. *)
Theorem scenario_prints_two_lines :
  prints (log (snd (Lab.run (Lab.proving Lab.proof_json Lab.scenario_text)
                      Lab.empty_disk))) =
    [("1234567890123456789012345" ++ Lab.nl ++ ",")%string] /\
  stdout (snd (Lab.run (Lab.proving Lab.proof_json Lab.scenario_text)
                 Lab.empty_disk)) =
    ("1234567890123456789012345" ++ Lab.nl ++ "," ++ Lab.nl)%string /\
  count_char LF
    (stdout (snd (Lab.run (Lab.proving Lab.proof_json Lab.scenario_text)
                    Lab.empty_disk))) = 2.
Proof. repeat apply conj; vm_compute; reflexivity. Qed.

(** Claim C8.  The end-to-end scenario.  Of the four lines only the second is
    longer than the threshold; cleaning it leaves the digits and the
    line feed; the printed string has the line feed between the digits
    and the comma, so the digits followed at once by a comma do not
    occur in it.  Ending the lines with carriage return and line feed
    gives the same lines to the loop. *)
Theorem scenario_output :
  Described.qualifying (file_items Lab.scenario_text) =
    [("    " ++ Lab.q ++ "1234567890123456789012345" ++ Lab.q ++ "," ++
      Lab.nl)%string] /\
  map clean (Described.qualifying (file_items Lab.scenario_text)) =
    [("1234567890123456789012345" ++ Lab.nl)%string] /\
  stdout (snd (Lab.run (Lab.inert 0)
                 (Lab.write Lab.proof_json Lab.scenario_text Lab.empty_disk))) =
    ("1234567890123456789012345" ++ Lab.nl ++ "," ++ Lab.nl)%string /\
  contains "1234567890123456789012345,"
    (stdout (snd (Lab.run (Lab.inert 0)
                    (Lab.write Lab.proof_json Lab.scenario_text
                       Lab.empty_disk)))) = false /\
  file_items Lab.scenario_text_crlf = file_items Lab.scenario_text.
Proof. repeat apply conj; vm_compute; reflexivity. Qed.




(* ===================================================================== *)
(** ** Further facts about cleaning and reading *)
(* ===================================================================== *)

Section CleaningFacts.
Import PyStr PyText Script.
Local Arguments Ascii.eqb : simpl never.

(** A character deleted at some stage of the chain is absent at the
    end, whatever the later stages delete. *)
Lemma clean_lacks_space_comma (s : string) :
  count_char SP (clean s) = 0 /\ count_char COMMA (clean s) = 0.
Proof.
  split; [apply clean_no_space|].
  rewrite clean_deletions.
  pose proof (count_char_remove_same COMMA (remove_char SP s)) as H1.
  assert (N : String CR (str1 LF) <> "") by discriminate.
  pose proof (count_char_replace_empty_le COMMA (String CR (str1 LF))
                (remove_char COMMA (remove_char SP s)) N) as H2.
  pose proof (count_char_remove_le COMMA TAB
                (replace (String CR (str1 LF)) ""
                   (remove_char COMMA (remove_char SP s)))) as H3.
  pose proof (count_char_remove_le COMMA DQ
                (remove_char TAB
                   (replace (String CR (str1 LF)) ""
                      (remove_char COMMA (remove_char SP s))))) as H4.
  lia.
Qed.

Lemma clean_lacks_tab_quote (s : string) :
  count_char TAB (clean s) = 0 /\ count_char DQ (clean s) = 0.
Proof.
  rewrite clean_deletions. split.
  - pose proof (count_char_remove_same TAB
                  (replace (String CR (str1 LF)) ""
                     (remove_char COMMA (remove_char SP s)))) as H1.
    pose proof (count_char_remove_le TAB DQ
                  (remove_char TAB
                     (replace (String CR (str1 LF)) ""
                        (remove_char COMMA (remove_char SP s))))) as H2.
    lia.
  - apply count_char_remove_same.
Qed.

(** Cleaning adds no carriage return. *)
Lemma clean_count_le (c : ascii) (s : string) :
  count_char c (clean s) <= count_char c s.
Proof.
  rewrite clean_deletions.
  assert (N : String CR (str1 LF) <> "") by discriminate.
  pose proof (count_char_remove_le c SP s).
  pose proof (count_char_remove_le c COMMA (remove_char SP s)).
  pose proof (count_char_replace_empty_le c (String CR (str1 LF))
                (remove_char COMMA (remove_char SP s)) N).
  pose proof (count_char_remove_le c TAB
                (replace (String CR (str1 LF)) ""
                   (remove_char COMMA (remove_char SP s)))).
  pose proof (count_char_remove_le c DQ
                (remove_char TAB
                   (replace (String CR (str1 LF)) ""
                      (remove_char COMMA (remove_char SP s))))).
  lia.
Qed.

(** A character that is not listed differs from each listed one. *)
Lemma unlisted_differs (c : ascii) :
  Described.listed c = false ->
  c <> SP /\ c <> COMMA /\ c <> TAB /\ c <> DQ.
Proof.
  unfold Described.listed. intros H.
  repeat apply conj; intros ->; vm_compute in H; discriminate H.
Qed.

Lemma clean_without_cr_count (c : ascii) (s : string) :
  count_char CR s = 0 -> Described.listed c = false ->
  count_char c (clean s) = count_char c s.
Proof.
  intros Hcr Hc. destruct (unlisted_differs c Hc) as [N1 [N2 [N3 N4]]].
  rewrite (clean_without_cr s Hcr).
  now rewrite !count_char_remove_other.
Qed.

Lemma clean_without_cr_append (a b : string) :
  count_char CR a = 0 -> count_char CR b = 0 ->
  clean (a ++ b) = (clean a ++ clean b)%string.
Proof.
  intros Ha Hb.
  rewrite (clean_without_cr a Ha), (clean_without_cr b Hb), clean_without_cr.
  - now rewrite !remove_char_append.
  - rewrite count_char_append. lia.
Qed.

Lemma clean_twice (s : string) :
  count_char CR s = 0 -> clean (clean s) = clean s.
Proof.
  intros H.
  assert (Hc : count_char CR (clean s) = 0).
  { pose proof (clean_count_le CR s). lia. }
  rewrite (clean_without_cr (clean s) Hc).
  destruct (clean_lacks_space_comma s) as [H1 H2].
  destruct (clean_lacks_tab_quote s) as [H3 H4].
  rewrite (remove_char_absent SP _ H1), (remove_char_absent COMMA _ H2),
          (remove_char_absent TAB _ H3), (remove_char_absent DQ _ H4).
  reflexivity.
Qed.

Lemma file_item_no_cr (text item : string) :
  In item (file_items text) -> count_char CR item = 0.
Proof.
  intros H. pose proof (file_items_no_cr text) as F.
  rewrite Forall_forall in F. now apply F.
Qed.

End CleaningFacts.

Section ReadingFacts.
Import PyStr PyText Script.
Local Arguments Ascii.eqb : simpl never.

(** Without carriage return the newline translation changes nothing. *)
Lemma universal_newlines_without_cr (s : string) :
  count_char CR s = 0 -> universal_newlines s = s.
Proof.
  induction s as [|c s IH]; [reflexivity|].
  cbn [count_char universal_newlines].
  rewrite (Ascii.eqb_sym c CR).
  destruct (Ascii.eqb CR c); [discriminate|].
  cbn [Nat.add]. intros H. now rewrite IH.
Qed.

(** Reading back a document saved with carriage returns before its line
    feeds gives the document. *)
Lemma universal_newlines_crlf (s : string) :
  count_char CR s = 0 -> universal_newlines (Lab.crlf s) = s.
Proof.
  induction s as [|c s IH]; [reflexivity|].
  cbn [count_char Lab.crlf].
  destruct (Ascii.eqb CR c) eqn:Ecr; [discriminate|].
  cbn [Nat.add]. intros H.
  destruct (Ascii.eqb_spec c LF) as [->|N].
  - cbn [universal_newlines].
    rewrite (Ascii.eqb_refl CR), (Ascii.eqb_refl LF). now rewrite IH.
  - cbn [universal_newlines]. rewrite (Ascii.eqb_sym c CR), Ecr.
    now rewrite IH.
Qed.

(** No line is empty, and a line holds at most one line feed. *)
Lemma splitlines_keep_items (s : string) :
  Forall (fun l => l <> "" /\ count_char LF l <= 1) (splitlines_keep s).
Proof.
  induction s as [|c s IH]; [constructor|].
  cbn [splitlines_keep].
  destruct (Ascii.eqb c LF) eqn:E.
  - constructor; [|exact IH]. split; [discriminate|].
    unfold str1. cbn [count_char]. rewrite Ascii.eqb_refl. reflexivity.
  - destruct (splitlines_keep s) as [|l ls].
    + constructor; [|constructor]. split; [discriminate|].
      unfold str1. cbn [count_char]. rewrite (Ascii.eqb_sym LF c), E. lia.
    + inversion IH as [|? ? [_ Hl] Hls]; subst.
      constructor; [|exact Hls]. split; [discriminate|].
      cbn [count_char]. rewrite (Ascii.eqb_sym LF c), E. exact Hl.
Qed.

(** A text without line feed, followed by one, is one line. *)
Lemma splitlines_keep_single (body : string) :
  count_char LF body = 0 ->
  splitlines_keep (body ++ str1 LF) = [(body ++ str1 LF)%string].
Proof.
  induction body as [|c body IH].
  - intros _. cbn. rewrite Ascii.eqb_refl. reflexivity.
  - cbn [count_char append splitlines_keep].
    rewrite (Ascii.eqb_sym c LF).
    destruct (Ascii.eqb LF c); [discriminate|].
    cbn [Nat.add]. intros H. now rewrite (IH H).
Qed.

End ReadingFacts.

Section OutputFacts.
Import PyStr PyText Script.
Local Arguments Ascii.eqb : simpl never.

(** The loop as filter, map and join. *)
Lemma for_items_closed_form (its : list string) :
  for_items its "" =
  String.concat ""
    (map (fun l => (clean l ++ ",")%string)
       (filter (fun l => (25 <? len l)%nat) its)).
Proof.
  induction its as [|it its IH]; [reflexivity|].
  rewrite for_items_cons, IH. cbn [filter].
  destruct (25 <? len it)%nat; [|reflexivity].
  cbn [map]. now rewrite concat_empty_cons.
Qed.

(** How often a character occurs in what the loop leaves. *)
Lemma for_items_count (c : ascii) (its : list string) :
  count_char c (for_items its "") =
  list_sum (map (fun l => count_char c (clean l) + count_char c ",")
              (filter (fun l => (25 <? len l)%nat) its)).
Proof.
  induction its as [|it its IH]; [reflexivity|].
  rewrite for_items_cons, count_char_append, IH. cbn [filter].
  destruct (25 <? len it)%nat; [|reflexivity].
  cbn [map list_sum fold_right]. now rewrite count_char_append.
Qed.

Lemma list_sum_constant {A} (f : A -> nat) (k : nat) (l : list A) :
  Forall (fun x => f x = k) l -> list_sum (map f l) = k * length l.
Proof.
  induction 1 as [|x l Hx _ IH]; cbn [map list_sum fold_right length]; [lia|].
  fold (list_sum (map f l)). rewrite Hx, IH. lia.
Qed.

Lemma list_sum_bounded {A} (f : A -> nat) (k : nat) (l : list A) :
  Forall (fun x => f x <= k) l -> list_sum (map f l) <= k * length l.
Proof.
  induction 1 as [|x l Hx _ IH]; cbn [map list_sum fold_right length]; [lia|].
  fold (list_sum (map f l)). lia.
Qed.

Lemma filter_Forall {A} (P : A -> Prop) (f : A -> bool) (l : list A) :
  Forall P l -> Forall P (filter f l).
Proof.
  induction 1 as [|x l Hx _ IH]; cbn [filter]; [constructor|].
  destruct (f x); [constructor|]; assumption.
Qed.

Lemma len_append (a b : string) : len (a ++ b) = len a + len b.
Proof.
  unfold len. induction a as [|x a IH]; cbn [append String.length];
    [reflexivity | now rewrite IH].
Qed.

(** An accumulator that is empty at the end never grew. *)
Lemma for_items_empty (its : list string) :
  for_items its "" = "" ->
  filter (fun l => (25 <? len l)%nat) its = [].
Proof.
  induction its as [|it its IH]; [reflexivity|].
  rewrite for_items_cons. cbn [filter].
  destruct (25 <? len it)%nat; [|exact IH].
  intros H. apply (f_equal len) in H.
  rewrite !len_append in H. cbn in H. lia.
Qed.

End OutputFacts.

Section PathFacts.
Import PyStr PyText Script.

Lemma startswith_append (n b : string) : startswith n (n ++ b) = true.
Proof.
  induction n as [|c n IH]; [reflexivity|].
  cbn [append startswith]. now rewrite Ascii.eqb_refl, IH.
Qed.

(** A string occurs in whatever is built around it. *)
Lemma contains_inside (n a b : string) : contains n (a ++ n ++ b) = true.
Proof.
  induction a as [|c a IH].
  - cbn [append]. destruct (n ++ b)%string eqn:E; cbn [contains];
      rewrite <- E, startswith_append; reflexivity.
  - cbn [append contains]. rewrite IH. apply orb_true_r.
Qed.

Lemma list_ascii_of_string_append (a b : string) :
  list_ascii_of_string (a ++ b) =
  list_ascii_of_string a ++ list_ascii_of_string b.
Proof.
  induction a as [|c a IH]; cbn [append list_ascii_of_string app];
    [reflexivity | now rewrite IH].
Qed.

Lemma string_of_list_ascii_append (a b : list ascii) :
  string_of_list_ascii (a ++ b) =
  (string_of_list_ascii a ++ string_of_list_ascii b)%string.
Proof.
  induction a as [|c a IH]; cbn [append string_of_list_ascii app];
    [reflexivity | now rewrite IH].
Qed.

Lemma lstrip_slash_run (n : nat) (l : list ascii) :
  lstrip_slash (repeat SLASH n ++ l) = lstrip_slash l.
Proof.
  induction n as [|n IH]; [reflexivity|].
  cbn [repeat app lstrip_slash]. now rewrite Ascii.eqb_refl.
Qed.

Lemma rev_run (n : nat) : rev (repeat SLASH n) = repeat SLASH n.
Proof.
  induction n as [|n IH]; [reflexivity|].
  cbn [repeat rev]. rewrite IH. clear IH.
  induction n as [|n IH]; [reflexivity|].
  cbn [repeat app]. now rewrite IH.
Qed.

End PathFacts.

(* ===================================================================== *)
(** ** Further properties of the script *)
(* ===================================================================== *)

(** X1.  Whatever the line, the chain of replacements leaves no space,
    no comma, no tab and no double quote in it. *)
Theorem clean_strips_listed_characters :
  forall s : string,
    count_char SP (clean s) = 0 /\ count_char COMMA (clean s) = 0 /\
    count_char TAB (clean s) = 0 /\ count_char DQ (clean s) = 0.
Proof.
  intros s.
  destruct (clean_lacks_space_comma s) as [H1 H2].
  destruct (clean_lacks_tab_quote s) as [H3 H4].
  repeat apply conj; assumption.
Qed.

(** X2.  On a line read from a file, every character other than those
    four survives the replacements as often as it occurs; the line feed
    that ends the line is one of them. *)
Theorem clean_keeps_other_characters :
  forall (text item : string) (c : ascii),
    In item (file_items text) ->
    Described.listed c = false ->
    count_char c (clean item) = count_char c item.
Proof.
  intros text item c Hin Hc.
  apply clean_without_cr_count; [|exact Hc].
  exact (file_item_no_cr text item Hin).
Qed.

Lemma clean_keeps_other_characters_witness :
  In Lab.line26 (file_items (Lab.first_line ++ Lab.line26)) /\
  Described.listed LF = false /\
  count_char LF (clean Lab.line26) = count_char LF Lab.line26.
Proof.
  assert (I : In Lab.line26 (file_items (Lab.first_line ++ Lab.line26))).
  { right. left. reflexivity. }
  split; [exact I|]. split; [reflexivity|].
  exact (clean_keeps_other_characters _ Lab.line26 LF I eq_refl).
Defined.

(** X3.  Cleaning a line read from a file a second time changes
    nothing. *)
Theorem clean_idempotent_on_file_lines :
  forall text item : string,
    In item (file_items text) -> clean (clean item) = clean item.
Proof.
  intros text item Hin.
  apply clean_twice. exact (file_item_no_cr text item Hin).
Qed.

Lemma clean_idempotent_on_file_lines_witness :
  In Lab.line26 (file_items (Lab.first_line ++ Lab.line26)) /\
  clean (clean Lab.line26) = clean Lab.line26.
Proof.
  assert (I : In Lab.line26 (file_items (Lab.first_line ++ Lab.line26))).
  { right. left. reflexivity. }
  split; [exact I|].
  exact (clean_idempotent_on_file_lines _ Lab.line26 I).
Defined.

(** X4.  On a line read from a file the replacement of the
    carriage-return/line-feed pair finds nothing to replace: the string
    it is applied to comes out as it went in. *)
Theorem crlf_replace_idle_on_file_lines :
  forall text item : string,
    In item (file_items text) ->
    replace (String CR (str1 LF)) "" (replace "," "" (replace " " "" item)) =
    replace "," "" (replace " " "" item).
Proof.
  intros text item Hin.
  change (replace "," "") with (replace (str1 COMMA) "").
  change (replace " " "") with (replace (str1 SP) "").
  rewrite (replace_char_empty COMMA), (replace_char_empty SP).
  apply replace_crlf_absent.
  pose proof (file_item_no_cr text item Hin).
  pose proof (count_char_remove_le CR COMMA (remove_char SP item)).
  pose proof (count_char_remove_le CR SP item). lia.
Qed.

Lemma crlf_replace_idle_on_file_lines_witness :
  In Lab.line26 (file_items (Lab.crlf (Lab.first_line ++ Lab.line26))) /\
  replace (String CR (str1 LF)) ""
    (replace "," "" (replace " " "" Lab.line26)) =
  replace "," "" (replace " " "" Lab.line26).
Proof.
  assert (I : In Lab.line26
                (file_items (Lab.crlf (Lab.first_line ++ Lab.line26)))).
  { right. left. reflexivity. }
  split; [exact I|].
  exact (crlf_replace_idle_on_file_lines _ Lab.line26 I).
Defined.

(** X5.  The replacement of spaces applied to the accumulated string
    before printing never changes it: the loop has left no space. *)
Theorem final_space_strip_idle :
  forall its : list string,
    replace (chr 32) "" (for_items its "") = for_items its "".
Proof. intros its. apply final_replace_idle. Qed.

(** X6.  What is printed is a filter, a map and a join: the lines
    longer than 25, each cleaned and followed by a comma, put one after
    the other in their order. *)
Theorem loop_is_filter_map_join :
  forall its : list string,
    printed_for its =
    String.concat ""
      (map (fun l => (clean l ++ ",")%string)
         (filter (fun l => (25 <? len l)%nat) its)).
Proof.
  intros its. unfold printed_for.
  now rewrite final_replace_idle, for_items_closed_form.
Qed.

(** X7.  The printed string of a document cut in two is the printed
    string of the first part followed by that of the second. *)
Theorem printed_for_concatenates :
  forall a b : list string,
    printed_for (a ++ b) = (printed_for a ++ printed_for b)%string.
Proof.
  intros a b. unfold printed_for.
  now rewrite !final_replace_idle, for_items_app.
Qed.

(** X8.  The printed string holds exactly one comma for each line
    longer than 25: the commas of the lines are gone, the separators
    remain. *)
Theorem one_comma_per_qualifying_line :
  forall its : list string,
    count_char COMMA (printed_for its) = length (Described.qualifying its).
Proof.
  intros its. unfold printed_for. rewrite final_replace_idle, for_items_count.
  rewrite (list_sum_constant _ 1).
  - unfold Described.qualifying, len. lia.
  - apply Forall_forall. intros l _.
    destruct (clean_lacks_space_comma l) as [_ H]. rewrite H. reflexivity.
Qed.

(** X9.  The printed string holds no space, no tab and no double
    quote. *)
Theorem output_lacks_space_tab_quote :
  forall its : list string,
    count_char SP (printed_for its) = 0 /\
    count_char TAB (printed_for its) = 0 /\
    count_char DQ (printed_for its) = 0.
Proof.
  intros its. unfold printed_for. rewrite final_replace_idle.
  repeat apply conj; rewrite for_items_count;
    rewrite (list_sum_constant _ 0); try lia;
    apply Forall_forall; intros l _;
    destruct (clean_lacks_space_comma l) as [H1 _];
    destruct (clean_lacks_tab_quote l) as [H3 H4];
    rewrite ?H1, ?H3, ?H4; reflexivity.
Qed.

(** X10.  The printed string is empty exactly when no line is longer
    than 25. *)
Theorem output_empty_iff_no_qualifying_line :
  forall its : list string,
    printed_for its = "" <-> Described.qualifying its = [].
Proof.
  intros its. unfold printed_for. rewrite final_replace_idle. split.
  - apply for_items_empty.
  - intros H. rewrite for_items_closed_form.
    unfold Described.qualifying, len in *. now rewrite H.
Qed.

(** X11.  As soon as one line is longer than 25, the printed string
    ends with a comma. *)
Theorem output_ends_with_comma :
  forall its : list string,
    Described.qualifying its <> [] ->
    exists body, printed_for its = (body ++ ",")%string.
Proof.
  intros its. unfold printed_for. rewrite final_replace_idle.
  induction its as [|it its IH]; intros H; [now elim H|].
  rewrite for_items_cons.
  unfold Described.qualifying in H, IH. cbn [filter] in H.
  destruct (filter (fun l => (25 <? String.length l)%nat) its)
    as [|x xs] eqn:E.
  - assert (Z : for_items its "" = "").
    { rewrite for_items_closed_form. unfold len. now rewrite E. }
    rewrite Z. unfold len.
    destruct (25 <? String.length it)%nat; [|now elim H].
    exists (clean it). now rewrite append_nil_r.
  - destruct IH as [body Hb]; [discriminate|].
    rewrite Hb.
    exists ((if (25 <? len it)%nat then clean it ++ "," else "") ++ body)%string.
    now rewrite append_assoc.
Qed.

Lemma output_ends_with_comma_witness :
  Described.qualifying (file_items Lab.proof_text) <> [] /\
  exists body, printed_for (file_items Lab.proof_text) = (body ++ ",")%string.
Proof.
  assert (N : Described.qualifying (file_items Lab.proof_text) <> []).
  { vm_compute. discriminate. }
  split; [exact N|].
  exact (output_ends_with_comma (file_items Lab.proof_text) N).
Defined.

(** X12.  For a document read from a file, the printed string holds at
    most one line feed for each line longer than 25. *)
Theorem output_line_feeds_bounded :
  forall text : string,
    count_char LF (printed_for (file_items text)) <=
    length (Described.qualifying (file_items text)).
Proof.
  intros text. unfold printed_for.
  rewrite final_replace_idle, for_items_count.
  unfold Described.qualifying, len.
  match goal with
  | |- list_sum (map ?f ?l) <= _ =>
      pose proof (list_sum_bounded f 1 l) as B
  end.
  rewrite Nat.mul_1_l in B. apply B. clear B.
  apply filter_Forall.
  pose proof (splitlines_keep_items (universal_newlines text)) as F.
  unfold file_items. rewrite Forall_forall in F |- *.
  intros l Hl. destruct (F l Hl) as [_ H1].
  pose proof (clean_count_le LF l).
  change (count_char LF ",") with 0. lia.
Qed.

(** X13.  The threshold on a line that ends with a line feed.  A
    document made of one such line has it printed when the text before
    the line feed has 25 characters or more, and not when it has fewer:
    the line feed counts towards the length and stays in the output. *)
Theorem terminated_line_threshold :
  forall body : string,
    count_char CR body = 0 ->
    count_char LF body = 0 ->
    printed_for (file_items (body ++ str1 LF)) =
    if (25 <=? len body)%nat
    then (clean body ++ str1 LF ++ ",")%string
    else "".
Proof.
  intros body Hcr Hlf.
  assert (Hcr' : count_char CR (body ++ str1 LF) = 0).
  { rewrite count_char_append, Hcr. reflexivity. }
  unfold file_items.
  rewrite (universal_newlines_without_cr _ Hcr'),
          (splitlines_keep_single body Hlf).
  unfold printed_for. rewrite final_replace_idle, for_items_cons.
  change (for_items [] "") with "". rewrite append_nil_r.
  rewrite len_append. change (len (str1 LF)) with 1.
  destruct (Nat.leb_spec 25 (len body)) as [G|G];
    destruct (Nat.ltb_spec 25 (len body + 1)) as [G'|G']; try lia.
  - rewrite (clean_without_cr_append body (str1 LF) Hcr eq_refl).
    change (clean (str1 LF)) with (str1 LF). now rewrite append_assoc.
  - reflexivity.
Qed.

Lemma terminated_line_threshold_witness :
  count_char CR "1234567890123456789012345" = 0 /\
  count_char LF "1234567890123456789012345" = 0 /\
  printed_for (file_items ("1234567890123456789012345" ++ str1 LF)) =
  ("1234567890123456789012345" ++ str1 LF ++ ",")%string.
Proof.
  split; [reflexivity|]. split; [reflexivity|].
  exact (terminated_line_threshold "1234567890123456789012345"
           eq_refl eq_refl).
Defined.

(** X14.  Line ends do not matter.  A document saved with a carriage
    return before every line feed gives the loop the same lines as the
    document saved with line feeds only. *)
Theorem crlf_line_ends_same_lines :
  forall text : string,
    count_char CR text = 0 ->
    file_items (Lab.crlf text) = file_items text.
Proof.
  intros text H. unfold file_items.
  now rewrite (universal_newlines_crlf text H),
              (universal_newlines_without_cr text H).
Qed.

Lemma crlf_line_ends_same_lines_witness :
  count_char CR Lab.proof_text = 0 /\
  file_items (Lab.crlf Lab.proof_text) = file_items Lab.proof_text.
Proof.
  split; [reflexivity|].
  exact (crlf_line_ends_same_lines Lab.proof_text eq_refl).
Defined.

(** X15.  Iterating over the file loses nothing: the lines put together
    are the document as read, no line is empty, and no line holds a
    carriage return or more than one line feed. *)
Theorem file_items_round_trip :
  forall text : string,
    String.concat "" (file_items text) = universal_newlines text /\
    Forall (fun item => item <> "" /\ count_char CR item = 0 /\
                        count_char LF item <= 1)
      (file_items text).
Proof.
  intros text. split; [apply splitlines_keep_concat|].
  pose proof (file_items_no_cr text) as F1.
  pose proof (splitlines_keep_items (universal_newlines text)) as F2.
  unfold file_items in *. rewrite Forall_forall in *.
  intros item Hin. destruct (F2 item Hin) as [N L].
  repeat apply conj; [exact N | exact (F1 item Hin) | exact L].
Qed.



(** X17.  The stages are wired through the same paths: the witness file
    named in the first command is named in the second, and the proof
    file named in the second command is the file the script opens. *)
Theorem pipeline_paths_agree :
  forall artefactPath : string,
    contains (artefactPath ++ "/witness.wtns")
      (generateWitnessCmd artefactPath) = true /\
    contains (artefactPath ++ "/witness.wtns")
      (generateProofCmd artefactPath) = true /\
    contains (proof_path artefactPath)
      (generateProofCmd artefactPath) = true.
Proof.
  intros p. unfold generateWitnessCmd, generateProofCmd, proof_path.
  repeat apply conj.
  - pose proof (contains_inside (p ++ "/witness.wtns")
                  ("node " ++ p ++ "/generate_witness.js " ++
                   p ++ "/withdraw.wasm " ++ p ++ "/input.json ") "") as H.
    rewrite append_nil_r in H. rewrite ?append_assoc in H.
    exact H.
  - pose proof (contains_inside (p ++ "/witness.wtns")
                  ("snarkjs groth16 prove  " ++ p ++ "/final.zkey  ")
                  ("  " ++ p ++ "/proof.json  " ++ p ++ "/public.json")) as H.
    rewrite ?append_assoc in H. exact H.
  - pose proof (contains_inside (p ++ "/proof.json")
                  ("snarkjs groth16 prove  " ++ p ++ "/final.zkey  " ++
                   p ++ "/witness.wtns  ")
                  ("  " ++ p ++ "/public.json")) as H.
    rewrite ?append_assoc in H. exact H.
Qed.

(** X18.  The directory computed from the name of the opened file is
    the artefact path without its trailing slashes, for a path that
    does not consist of slashes only. *)
Theorem dirname_of_proof_path :
  forall (p : string) (c : ascii) (n : nat),
    c <> SLASH ->
    dirname ((p ++ str1 c ++ string_of_list_ascii (repeat SLASH n)) ++
             "/proof.json") = (p ++ str1 c)%string.
Proof.
  intros p c n N. unfold dirname.
  rewrite !list_ascii_of_string_append, list_ascii_of_string_of_list_ascii.
  rewrite !rev_app_distr, rev_run.
  change (rev (list_ascii_of_string "/proof.json")) with
    (list_ascii_of_string "nosj.foorp" ++ [SLASH]).
  rewrite <- !app_assoc.
  change (drop_to_slash
            (list_ascii_of_string "nosj.foorp" ++
             [SLASH] ++ repeat SLASH n ++
             rev (list_ascii_of_string (str1 c)) ++
             rev (list_ascii_of_string p)))
    with (SLASH :: repeat SLASH n ++
          rev (list_ascii_of_string (str1 c)) ++
          rev (list_ascii_of_string p)).
  change (SLASH :: repeat SLASH n ++
          rev (list_ascii_of_string (str1 c)) ++ rev (list_ascii_of_string p))
    with (repeat SLASH (S n) ++
          c :: rev (list_ascii_of_string p)).
  rewrite lstrip_slash_run. cbn [lstrip_slash].
  destruct (Ascii.eqb_spec c SLASH) as [E|_]; [contradiction|].
  cbn [rev]. rewrite rev_involutive, string_of_list_ascii_append.
  now rewrite string_of_list_ascii_of_string.
Qed.

Lemma dirname_of_proof_path_witness :
  "s"%char <> SLASH /\
  dirname (("/tmp/artefact" ++ str1 "s" ++
            string_of_list_ascii (repeat SLASH 1)) ++ "/proof.json") =
  ("/tmp/artefact" ++ str1 "s")%string.
Proof.
  split; [discriminate|].
  exact (dirname_of_proof_path "/tmp/artefact" "s" 1
           ltac:(discriminate)).
Defined.
